(** * AIImageClassifierRNW: the package provider and the page container

    A shallow embedding of the two native-host files of the Windows target,

      - [ReactPackageProvider.cpp]: [ReactPackageProvider::CreatePackage],
      - [MainPage.h]: [struct MainPage : MainPageT<MainPage>],

    together with the facts the specification states about them.  The GUI
    framework runtime (Microsoft.ReactNative) is not part of the repository:
    the routine [AddAttributedModules], the builder type and the page base
    template are parameters of the development, and a small reference
    framework is used wherever a concrete one is needed. *)

From stdpp Require Import base gmap strings list.

Set Default Proof Using "Type".

(** ** C++ control flow: how a call ends *)

Module Cxx.

(** A WinRT error code; C++/WinRT throws it as [winrt::hresult_error]. *)
Definition HRESULT : Type := Z.

Definition E_FAIL : HRESULT := (-2147467259)%Z.

(** The three ways a C++ call can end. *)
Inductive completion (A : Type) : Type :=
| Normal (a : A)       (* control is back in the caller, with the result *)
| Throw (hr : HRESULT) (* an exception leaves the callee towards the caller *)
| Abort.               (* [std::terminate]: the process ends, nobody is resumed *)

Global Arguments Normal {A} a.
Global Arguments Throw {A} hr.
Global Arguments Abort {A}.

(** A computation over a mutable state [S]: the state is kept whatever the
    completion, as the writes made before a throw stay made. *)
Definition M (S A : Type) : Type := S -> completion A * S.

Definition ret {S A} (a : A) : M S A := fun s => (Normal a, s).

Definition bind {S A B} (m : M S A) (k : A -> M S B) : M S B :=
  fun s =>
    match m s with
    | (Normal a, s') => k a s'
    | (Throw hr, s') => (Throw hr, s')
    | (Abort, s') => (Abort, s')
    end.

(** The boundary of a function declared [noexcept]: an exception that
    reaches it calls [std::terminate]. *)
Definition noexcept {S A} (m : M S A) : M S A :=
  fun s =>
    match m s with
    | (Throw _, s') => (Abort, s')
    | r => r
    end.

(** Statements in sequence, for each element of a list. *)
Fixpoint for_each {S X} (body : X -> M S unit) (xs : list X) : M S unit :=
  match xs with
  | [] => ret tt
  | x :: rest => bind (body x) (fun _ => for_each body rest)
  end.

End Cxx.

Import Cxx.

(** ** ReactPackageProvider.cpp *)

Section PackageProvider.

(** [winrt::Microsoft::ReactNative::IReactPackageBuilder] and the state of
    the framework runtime that a builder gives access to. *)
Context {IReactPackageBuilder World : Type}.

(** The data members of [ReactPackageProvider]; the class is declared in
    ReactPackageProvider.h, outside this fragment. *)
Context {Fields : Type}.

(** A call that leaves the fragment for the framework. *)
Inductive FrameworkCall : Type :=
| CallAddAttributedModules (packageBuilder : IReactPackageBuilder)
                           (useTurboModules : bool).

(** [AddAttributedModules] of the framework's NativeModules.h. *)
Variable AddAttributedModules : IReactPackageBuilder -> bool -> M World unit.

(** What a member function of the provider runs against: its object, the
    framework's state, and the log of the calls made into the framework. *)
Record Frame : Type := mkFrame {
  this : Fields;
  world : World;
  calls : list FrameworkCall;
}.

Definition dispatch (c : FrameworkCall) : M World unit :=
  match c with
  | CallAddAttributedModules packageBuilder useTurboModules =>
      AddAttributedModules packageBuilder useTurboModules
  end.

(** A framework call works on the framework's state only; it is logged
    when it is made, before the callee runs. *)
Definition call (c : FrameworkCall) : M Frame unit :=
  fun f =>
    let '(r, w) := dispatch c (world f) in
    (r, {| this := this f; world := w; calls := calls f ++ [c] |}).

(** <<
    void ReactPackageProvider::CreatePackage(IReactPackageBuilder const &packageBuilder) noexcept
    {
        AddAttributedModules(packageBuilder, true);
    }
    >> *)
Definition CreatePackage (packageBuilder : IReactPackageBuilder) : M Frame unit :=
  noexcept (call (CallAddAttributedModules packageBuilder true)).

End PackageProvider.

Global Arguments FrameworkCall : clear implicits.
Global Arguments Frame : clear implicits.
Global Arguments mkFrame {_ _ _} _ _ _.

(** ** MainPage.h *)

Section PageContainer.

(** The state of the generated base [MainPageT<MainPage>] (MainPage.g.h)
    and the view-side state of the framework. *)
Context {MainPageT UI : Type}.

(** <<
    struct MainPage : MainPageT<MainPage>
    {
        MainPage();
    };
    >>
    One base subobject, no data member. *)
Record MainPage : Type := mkMainPage {
  base : MainPageT;
}.

(** The base subobject as the framework default-constructs it. *)
Variable MainPageT_default : MainPageT.

(** Modelled from the spec: the body of the constructor [MainPage::MainPage()]
    is in MainPage.cpp, outside this fragment; MainPage.h only declares it.
    The spec gives it no inputs, no outputs and no observable side effect
    beyond successful construction, and the page no attributes of its own. *)
Definition MainPage_ctor : M UI MainPage :=
  fun ui => (Normal {| base := MainPageT_default |}, ui).

End PageContainer.

Global Arguments MainPage : clear implicits.

(** ** The framework driving both components *)

Section Startup.

Context {IReactPackageBuilder World Fields MainPageT : Type}.

Variable AddAttributedModules : IReactPackageBuilder -> bool -> M World unit.

(** The page constructor, whatever its body: it takes no argument and runs
    against the state of the framework. *)
Variable construct : M World (MainPage MainPageT).

(** The two entry points the framework invokes. *)
Inductive Invocation : Type :=
| ConstructPage
| InvokeCreatePackage (packageBuilder : IReactPackageBuilder).

(** Modelled from the spec: what drives the two components is the framework
    runtime, which is not part of the repository.  By the spec control flow
    is entirely framework-initiated: the framework constructs the page, and
    separately invokes the provider's registration entry point.  A process
    is the pages constructed so far and the frame the provider runs
    against; the state of the framework is one, shared by both entry
    points. *)
Record Process : Type := mkProcess {
  pages : list (MainPage MainPageT);
  host : Frame IReactPackageBuilder World Fields;
}.

Definition invoke (i : Invocation) : M Process unit :=
  fun p =>
    match i with
    | ConstructPage =>
        let '(r, w) := construct (world (host p)) in
        let h := mkFrame (this (host p)) w (calls (host p)) in
        match r with
        | Normal page => (Normal tt, {| pages := pages p ++ [page]; host := h |})
        | Throw hr => (Throw hr, {| pages := pages p; host := h |})
        | Abort => (Abort, {| pages := pages p; host := h |})
        end
    | InvokeCreatePackage packageBuilder =>
        let '(r, h) := CreatePackage AddAttributedModules packageBuilder (host p) in
        (r, {| pages := pages p; host := h |})
    end.

(** A run is the sequence of invocations the framework makes; it stops at
    the first one that does not return normally. *)
Definition run (steps : list Invocation) : M Process unit := for_each invoke steps.




(** What can be seen of the page container in a process: the part of the
    framework state its constructor reads, and the pages constructed. *)
Definition page_view {V : Type} (seen : World -> V) (p : Process)
    : V * list (MainPage MainPageT) :=
  (seen (world (host p)), pages p).

End Startup.

Global Arguments Invocation : clear implicits.
Global Arguments Process : clear implicits.

(** ** A reference framework *)

Module Reference.

(** The framework's module registry: module name to the flag it was
    added with. *)
Abbreviation Registry := (gmap string bool).

(** Modelled from the spec: the builder capability is an object of the
    framework runtime, which is not part of the repository; by the glossary
    it enables the provider to add discovered modules to the framework's
    registry.  As a WinRT interface it may be implemented by any object,
    and a method that reports a failing HRESULT throws in the caller. *)
Record Builder : Type := mkBuilder {
  add : string -> bool -> M Registry unit;
}.

(** The builder of the runtime: it records the module. *)
Definition registry_builder : Builder :=
  {| add := fun name turbo reg => (Normal tt, <[name := turbo]> reg) |}.

(** A builder that refuses every module. *)
Definition refusing_builder : Builder :=
  {| add := fun _ _ reg => (Throw E_FAIL, reg) |}.

(** A builder that accepts every module and records none. *)
Definition discarding_builder : Builder :=
  {| add := fun _ _ reg => (Normal tt, reg) |}.

(** Modelled from the spec: the bulk-registration routine is framework
    code, not part of the repository; it discovers the attributed native
    modules of the binary and adds each of them to the package builder.
    [binary] lists the names of the attributed modules linked in. *)
Definition AddAttributedModules (binary : list string)
    (packageBuilder : Builder) (useTurboModules : bool) : M Registry unit :=
  for_each (fun name => add packageBuilder name useTurboModules) binary.

(** Modelled from the spec: ReactPackageProvider.h is outside this
    fragment; by the spec the provider has no state to mutate. *)
Inductive ReactPackageProvider : Type := mkReactPackageProvider.

(** The provider as the application starts: nothing is registered and no
    call has been made. *)
Definition startup : Frame Builder Registry ReactPackageProvider :=
  mkFrame mkReactPackageProvider ∅ [].


(** A builder records what it is handed when its method returns normally
    with the module entered in the registry, as the runtime's builder
    does. *)
Definition records (packageBuilder : Builder) : Prop :=
  ∀ (name : string) (turbo : bool) (reg : Registry),
    add packageBuilder name turbo reg = (Normal tt, <[name := turbo]> reg).

(** A framework state with a view side: the registry, and the number of
    pages constructed so far.  The routine works on the registry. *)
Definition desktop_routine (binary : list string)
    (packageBuilder : Builder) (useTurboModules : bool)
    : M (Registry * nat) unit :=
  fun d =>
    let '(r, reg) := AddAttributedModules binary packageBuilder useTurboModules (fst d) in
    (r, (reg, snd d)).

(** A page constructor that reads and writes the view side: it numbers the
    pages it constructs. *)
Definition numbering_ctor : M (Registry * nat) (MainPage nat) :=
  fun d => (Normal {| base := snd d |}, (fst d, S (snd d))).

Definition desktop_boot : Process Builder (Registry * nat) ReactPackageProvider nat :=
  {| pages := []; host := mkFrame mkReactPackageProvider (∅, 0) [] |}.

End Reference.

(** * Facts *)

(** ** The monad *)

Lemma noexcept_never_throws {S A} (m : M S A) (s : S) (hr : HRESULT) :
  fst (noexcept m s) ≠ Throw hr.
Proof.
  unfold noexcept. destruct (m s) as [[a|hr'|] s']; simpl; discriminate.
Qed.

Lemma noexcept_normal {S A} (m : M S A) (s : S) (a : A) :
  fst (noexcept m s) = Normal a ↔ fst (m s) = Normal a.
Proof.
  unfold noexcept. destruct (m s) as [[a'|hr'|] s']; simpl; split; congruence.
Qed.

Lemma noexcept_state {S A} (m : M S A) (s : S) :
  snd (noexcept m s) = snd (m s).
Proof.
  unfold noexcept. destruct (m s) as [[a'|hr'|] s']; reflexivity.
Qed.

(** ** CreatePackage against any framework *)

Section PackageProviderFacts.

Context {IReactPackageBuilder World Fields : Type}.
Variable AddAttributedModules : IReactPackageBuilder -> bool -> M World unit.

Implicit Types (packageBuilder : IReactPackageBuilder)
               (f : Frame IReactPackageBuilder World Fields).

Lemma call_state c f :
  snd (call AddAttributedModules c f)
  = mkFrame (this f) (snd (dispatch AddAttributedModules c (world f))) (calls f ++ [c]).
Proof.
  unfold call. destruct (dispatch AddAttributedModules c (world f)); reflexivity.
Qed.

Lemma call_completion c f :
  fst (call AddAttributedModules c f) = fst (dispatch AddAttributedModules c (world f)).
Proof.
  unfold call. destruct (dispatch AddAttributedModules c (world f)); reflexivity.
Qed.

Lemma CreatePackage_state packageBuilder f :
  snd (CreatePackage AddAttributedModules packageBuilder f)
  = mkFrame (this f)
            (snd (AddAttributedModules packageBuilder true (world f)))
            (calls f ++ [CallAddAttributedModules packageBuilder true]).
Proof.
  unfold CreatePackage. rewrite noexcept_state, call_state. reflexivity.
Qed.

Lemma CreatePackage_completion packageBuilder f :
  fst (CreatePackage AddAttributedModules packageBuilder f)
  = fst (noexcept (AddAttributedModules packageBuilder true) (world f)).
Proof.
  unfold CreatePackage, noexcept, call. simpl.
  destruct (AddAttributedModules packageBuilder true (world f)) as [[[]|hr|] w];
    reflexivity.
Qed.

Lemma CreatePackage_this packageBuilder f :
  this (snd (CreatePackage AddAttributedModules packageBuilder f)) = this f.
Proof. rewrite CreatePackage_state. reflexivity. Qed.

Lemma CreatePackage_calls packageBuilder f :
  calls (snd (CreatePackage AddAttributedModules packageBuilder f))
  = calls f ++ [CallAddAttributedModules packageBuilder true].
Proof. rewrite CreatePackage_state. reflexivity. Qed.

Lemma CreatePackage_world packageBuilder f :
  world (snd (CreatePackage AddAttributedModules packageBuilder f))
  = snd (AddAttributedModules packageBuilder true (world f)).
Proof. rewrite CreatePackage_state. reflexivity. Qed.

End PackageProviderFacts.

(** ** The reference framework *)

Module ReferenceFacts.
Import Reference.

(** With a builder that records, the routine always returns, and leaves
    the registry with every module of the binary inserted in turn. *)
Lemma recording_builder_adds_all (binary : list string) (packageBuilder : Builder)
    (turbo : bool) (reg : Registry) :
  records packageBuilder →
  AddAttributedModules binary packageBuilder turbo reg
  = (Normal tt, foldl (fun r name => <[name := turbo]> r) reg binary).
Proof.
  intros Hrec. unfold AddAttributedModules.
  revert reg. induction binary as [|name rest IH]; intros reg.
  - reflexivity.
  - cbn [for_each foldl]. unfold bind at 1. rewrite Hrec. apply IH.
Qed.

Lemma registry_builder_records : records registry_builder.
Proof. intros name turbo reg. reflexivity. Qed.

(** With the runtime's builder the routine always returns, and leaves the
    registry with every module of the binary inserted in turn. *)
Lemma registry_builder_adds_all (binary : list string) (turbo : bool) (reg : Registry) :
  AddAttributedModules binary registry_builder turbo reg
  = (Normal tt, foldl (fun r name => <[name := turbo]> r) reg binary).
Proof.
  unfold AddAttributedModules.
  revert reg. induction binary as [|name rest IH]; intros reg.
  - reflexivity.
  - cbn [for_each foldl]. unfold bind at 1. cbn [add registry_builder].
    apply IH.
Qed.

Lemma inserted_stays (rest : list string) (turbo : bool) (reg : Registry) (name : string) :
  reg !! name = Some turbo →
  foldl (fun r n => <[n := turbo]> r) reg rest !! name = Some turbo.
Proof.
  revert reg. induction rest as [|n rest IH]; intros reg Hreg; cbn [foldl].
  - exact Hreg.
  - apply IH. destruct (decide (n = name)) as [->|Hne].
    + apply lookup_insert_eq.
    + rewrite lookup_insert_ne by exact Hne. exact Hreg.
Qed.

Lemma attributed_is_inserted (binary : list string) (turbo : bool) (reg : Registry) (name : string) :
  name ∈ binary →
  foldl (fun r n => <[n := turbo]> r) reg binary !! name = Some turbo.
Proof.
  revert reg. induction binary as [|n rest IH]; intros reg Hin.
  - inversion Hin.
  - cbn [foldl]. apply elem_of_cons in Hin as [->|Hin].
    + apply inserted_stays, lookup_insert_eq.
    + apply IH, Hin.
Qed.

Lemma others_untouched (binary : list string) (turbo : bool) (reg : Registry) (name : string) :
  name ∉ binary →
  foldl (fun r n => <[n := turbo]> r) reg binary !! name = reg !! name.
Proof.
  revert reg. induction binary as [|n rest IH]; intros reg Hnin; cbn [foldl].
  - reflexivity.
  - apply not_elem_of_cons in Hnin as [Hne Hnin].
    rewrite IH by exact Hnin. apply lookup_insert_ne. congruence.
Qed.

(** With nothing attributed in the binary the builder is never used. *)
Lemma nothing_attributed (packageBuilder : Builder) (turbo : bool) (reg : Registry) :
  AddAttributedModules [] packageBuilder turbo reg = (Normal tt, reg).
Proof. reflexivity. Qed.

End ReferenceFacts.

(** ** Startup runs *)

Section StartupFacts.

Context {IReactPackageBuilder World Fields MainPageT V : Type}.
Variable AddAttributedModules : IReactPackageBuilder -> bool -> M World unit.
Variable construct : M World (MainPage MainPageT).
Variable seen : World -> V.

Implicit Types (p q : Process IReactPackageBuilder World Fields MainPageT)
               (i j : Invocation IReactPackageBuilder).






End StartupFacts.

(** * The statements of the specification *)

(** C1, as amended.  [CreatePackage] never hands a failure to its caller: no
    exception leaves it, and its result type has no error code.  It returns
    normally exactly when the framework's [AddAttributedModules] returns
    normally, and ends the process at its [noexcept] boundary otherwise.
    With no attributed module in the binary the reference routine has
    nothing to add, and [CreatePackage] returns normally for every builder. *)
Theorem CreatePackage_no_failure_to_caller :
  (∀ (IReactPackageBuilder World Fields : Type)
     (AddAttributedModules : IReactPackageBuilder -> bool -> M World unit)
     (packageBuilder : IReactPackageBuilder)
     (f : Frame IReactPackageBuilder World Fields),
      (∀ hr, fst (CreatePackage AddAttributedModules packageBuilder f) ≠ Throw hr)
      ∧ (fst (CreatePackage AddAttributedModules packageBuilder f) = Normal tt
         ↔ fst (AddAttributedModules packageBuilder true (world f)) = Normal tt)
      ∧ (fst (CreatePackage AddAttributedModules packageBuilder f) = Abort
         ↔ fst (AddAttributedModules packageBuilder true (world f)) ≠ Normal tt))
  ∧ (∀ (Fields : Type) (packageBuilder : Reference.Builder)
       (f : Frame Reference.Builder Reference.Registry Fields),
      fst (CreatePackage (Reference.AddAttributedModules []) packageBuilder f)
      = Normal tt).
Proof.
  split.
  - intros B W F fw b f. rewrite CreatePackage_completion.
    split; [|split].
    + intros hr. apply noexcept_never_throws.
    + apply noexcept_normal.
    + unfold noexcept.
      destruct (fw b true (world f)) as [[[]|hr|] w]; simpl;
        split; congruence.
  - intros F b f. rewrite CreatePackage_completion.
    apply noexcept_normal. reflexivity.
Qed.

(** C1, as stated, fails: with one attributed module in the binary and a
    builder that refuses it, the exception of the framework routine reaches
    the [noexcept] boundary and [CreatePackage] does not return. *)
Lemma CreatePackage_refused_module_aborts :
  fst (CreatePackage (Reference.AddAttributedModules ["ImageClassifier"])
                     Reference.refusing_builder Reference.startup) = Abort
  ∧ fst (CreatePackage (Reference.AddAttributedModules ["ImageClassifier"])
                       Reference.refusing_builder Reference.startup) ≠ Normal tt.
Proof. split; [reflexivity | discriminate]. Qed.

(** C2, as amended.  All that [CreatePackage] does, for every builder, is
    one call of [AddAttributedModules] on the builder it was given: its
    completion and the framework state it leaves are those of that call,
    taken through [noexcept]; the provider object is as before; one call is
    logged.  The result type is [unit]: no value is returned.  In the
    reference framework, when the builder records what it is handed, as the
    runtime's builder does, the call returns and the registry holds every
    attributed module of the binary, the other entries being as before. *)
Theorem CreatePackage_single_delegation :
  (∀ (IReactPackageBuilder World Fields : Type)
     (AddAttributedModules : IReactPackageBuilder -> bool -> M World unit)
     (packageBuilder : IReactPackageBuilder)
     (f : Frame IReactPackageBuilder World Fields),
      fst (CreatePackage AddAttributedModules packageBuilder f)
      = fst (noexcept (AddAttributedModules packageBuilder true) (world f))
      ∧ snd (CreatePackage AddAttributedModules packageBuilder f)
        = mkFrame (this f)
                  (snd (AddAttributedModules packageBuilder true (world f)))
                  (calls f ++ [CallAddAttributedModules packageBuilder true]))
  ∧ (∀ (Fields : Type) (binary : list string)
       (packageBuilder : Reference.Builder)
       (f : Frame Reference.Builder Reference.Registry Fields),
      Reference.records packageBuilder →
      fst (CreatePackage (Reference.AddAttributedModules binary)
                         packageBuilder f) = Normal tt
      ∧ ∀ name : string,
          (name ∈ binary →
           world (snd (CreatePackage (Reference.AddAttributedModules binary)
                                     packageBuilder f)) !! name
           = Some true)
          ∧ (name ∉ binary →
             world (snd (CreatePackage (Reference.AddAttributedModules binary)
                                       packageBuilder f)) !! name
             = world f !! name)).
Proof.
  split.
  - intros B W F fw b f. split.
    + apply CreatePackage_completion.
    + apply CreatePackage_state.
  - intros F binary b f Hrec. split.
    + rewrite CreatePackage_completion. apply noexcept_normal.
      by rewrite ReferenceFacts.recording_builder_adds_all.
    + intros name. rewrite CreatePackage_world.
      rewrite ReferenceFacts.recording_builder_adds_all by exact Hrec.
      cbn [snd]. split.
      * apply ReferenceFacts.attributed_is_inserted.
      * apply ReferenceFacts.others_untouched.
Qed.

Lemma CreatePackage_single_delegation_witness :
  world (snd (CreatePackage
                (Reference.AddAttributedModules ["ImageClassifier"; "Camera"])
                Reference.registry_builder Reference.startup)) !! "Camera"
  = Some true.
Proof.
  apply (proj2 CreatePackage_single_delegation
               Reference.ReactPackageProvider ["ImageClassifier"; "Camera"]
               Reference.registry_builder Reference.startup).
  - intros name turbo reg. reflexivity.
  - apply list_elem_of_In. simpl. right; left. reflexivity.
Defined.

(** C2, as stated, fails: the registry does not gain the attributed modules
    for every builder.  With a builder that accepts every module and records
    none, [CreatePackage] returns normally and the attributed module is not
    in the registry. *)
Lemma CreatePackage_discarding_builder_registers_nothing :
  "ImageClassifier" ∈ ["ImageClassifier"]
  ∧ fst (CreatePackage (Reference.AddAttributedModules ["ImageClassifier"])
                       Reference.discarding_builder Reference.startup)
    = Normal tt
  ∧ world (snd (CreatePackage (Reference.AddAttributedModules ["ImageClassifier"])
                              Reference.discarding_builder Reference.startup))
      !! "ImageClassifier"
    = None.
Proof.
  split; [|split].
  - apply list_elem_of_In. left. reflexivity.
  - reflexivity.
  - reflexivity.
Qed.

(** C3.  The provider is stateless.  Over two successive invocations of
    [CreatePackage], with two builders (distinct or not), the provider object
    is after each call what it was before it, whatever data members its
    class declares; and each invocation makes at most one call. *)
Theorem CreatePackage_stateless :
  ∀ (IReactPackageBuilder World Fields : Type)
    (AddAttributedModules : IReactPackageBuilder -> bool -> M World unit)
    (builder1 builder2 : IReactPackageBuilder)
    (f : Frame IReactPackageBuilder World Fields),
    let f1 := snd (CreatePackage AddAttributedModules builder1 f) in
    let f2 := snd (CreatePackage AddAttributedModules builder2 f1) in
    this f1 = this f
    ∧ this f2 = this f1
    ∧ (∃ made, calls f1 = calls f ++ made ∧ length made ≤ 1)
    ∧ (∃ made, calls f2 = calls f1 ++ made ∧ length made ≤ 1).
Proof.
  intros B W F fw b1 b2 f f1 f2. subst f1 f2.
  repeat split.
  - apply CreatePackage_this.
  - apply CreatePackage_this.
  - eexists. split; [apply CreatePackage_calls | simpl; lia].
  - eexists. split; [apply CreatePackage_calls | simpl; lia].
Qed.

(** C4.  The page container has a default construction, one that takes no
    argument, and it ends normally with a page, from every state of the
    view side. *)
Theorem MainPage_default_constructible :
  ∀ (MainPageT UI : Type) (MainPageT_default : MainPageT) (ui : UI),
    ∃ page : MainPage MainPageT,
      MainPage_ctor MainPageT_default ui = (Normal page, ui).
Proof.
  intros T U d ui. exists {| base := d |}. reflexivity.
Qed.




(** C6.  The builder is used for the length of the call only: when the data
    members of the provider did not refer to the builder before
    [CreatePackage], they do not refer to it afterwards, whatever data
    members the class declares and whatever referring means for them. *)
Theorem CreatePackage_retains_no_builder :
  ∀ (IReactPackageBuilder World Fields : Type)
    (AddAttributedModules : IReactPackageBuilder -> bool -> M World unit)
    (refers_to : Fields → IReactPackageBuilder → Prop)
    (packageBuilder : IReactPackageBuilder)
    (f : Frame IReactPackageBuilder World Fields),
    ¬ refers_to (this f) packageBuilder →
    ¬ refers_to (this (snd (CreatePackage AddAttributedModules packageBuilder f)))
                packageBuilder.
Proof.
  intros B W F fw refers_to b f Hbefore.
  rewrite CreatePackage_this. exact Hbefore.
Qed.

Lemma CreatePackage_retains_no_builder_witness :
  this (snd (CreatePackage (Reference.AddAttributedModules ["ImageClassifier"])
                           Reference.registry_builder
                           (mkFrame (Some Reference.refusing_builder) ∅ [])))
  ≠ Some Reference.registry_builder.
Proof.
  apply (CreatePackage_retains_no_builder
           Reference.Builder Reference.Registry (option Reference.Builder)
           (Reference.AddAttributedModules ["ImageClassifier"])
           (λ slot b, slot = Some b)
           Reference.registry_builder
           (mkFrame (Some Reference.refusing_builder) ∅ [])).
  simpl. intros H. injection H as H.
  apply (f_equal (λ method : string → bool → M Reference.Registry (),
                    fst (method "ImageClassifier" true ∅))) in H.
  discriminate H.
Defined.

(** C7.  A page is its base subobject and nothing more: [base] and
    [mkMainPage] are inverse to each other, so two pages with the same base
    state are the same page, and whatever an operation returns is again
    determined by its base. *)
Theorem MainPage_no_own_state :
  ∀ (MainPageT : Type),
    (∀ page : MainPage MainPageT, mkMainPage (base page) = page)
    ∧ (∀ b : MainPageT, base (mkMainPage b) = b)
    ∧ (∀ (op : MainPage MainPageT → MainPage MainPageT) (page : MainPage MainPageT),
         mkMainPage (base (op page)) = op page).
Proof.
  intros T. repeat split.
  - intros [b]. reflexivity.
  - intros op page. destruct (op page) as [b]. reflexivity.
Qed.

(** C8.  Every invocation of [CreatePackage] makes the call
    [AddAttributedModules(packageBuilder, true)]: the call logged carries the
    builder given and the constant [true], and the framework state left is
    the one the routine leaves when run with [true]. *)
Theorem CreatePackage_flag_is_true :
  ∀ (IReactPackageBuilder World Fields : Type)
    (AddAttributedModules : IReactPackageBuilder -> bool -> M World unit)
    (packageBuilder : IReactPackageBuilder)
    (f : Frame IReactPackageBuilder World Fields),
    calls (snd (CreatePackage AddAttributedModules packageBuilder f))
    = calls f ++ [CallAddAttributedModules packageBuilder true]
    ∧ world (snd (CreatePackage AddAttributedModules packageBuilder f))
      = snd (AddAttributedModules packageBuilder true (world f)).
Proof.
  intros B W F fw b f. split.
  - apply CreatePackage_calls.
  - apply CreatePackage_world.
Qed.

(** C9.  [CreatePackage] is a function of its argument and of the framework:
    two invocations with the same builder, from the same framework state,
    end the same way and leave the same framework state, whatever the two
    provider objects are (even of different layouts) and whatever was called
    before. *)
Theorem CreatePackage_deterministic :
  ∀ (IReactPackageBuilder World Fields1 Fields2 : Type)
    (AddAttributedModules : IReactPackageBuilder -> bool -> M World unit)
    (packageBuilder : IReactPackageBuilder) (w : World)
    (this1 : Fields1) (this2 : Fields2)
    (log1 log2 : list (FrameworkCall IReactPackageBuilder)),
    let r1 := CreatePackage AddAttributedModules packageBuilder (mkFrame this1 w log1) in
    let r2 := CreatePackage AddAttributedModules packageBuilder (mkFrame this2 w log2) in
    fst r1 = fst r2 ∧ world (snd r1) = world (snd r2).
Proof.
  intros B W F1 F2 fw b w this1 this2 log1 log2 r1 r2. subst r1 r2.
  rewrite !CreatePackage_completion, !CreatePackage_world. split; reflexivity.
Qed.

(** ** The reference framework at work *)

Example CreatePackage_at_startup :
  CreatePackage (Reference.AddAttributedModules ["ImageClassifier"])
                Reference.registry_builder Reference.startup
  = (Normal tt,
     mkFrame Reference.mkReactPackageProvider
             {["ImageClassifier" := true]}
             [CallAddAttributedModules Reference.registry_builder true]).
Proof. reflexivity. Qed.

Example CreatePackage_nothing_attributed :
  CreatePackage (Reference.AddAttributedModules [])
                Reference.refusing_builder Reference.startup
  = (Normal tt,
     mkFrame Reference.mkReactPackageProvider ∅
             [CallAddAttributedModules Reference.refusing_builder true]).
Proof. reflexivity. Qed.

Example run_at_desktop_boot :
  page_view snd
    (snd (run (Reference.desktop_routine ["ImageClassifier"])
              Reference.numbering_ctor
              [ConstructPage; InvokeCreatePackage Reference.registry_builder;
               ConstructPage]
              Reference.desktop_boot))
  = (2, [mkMainPage 0; mkMainPage 1]).
Proof. reflexivity. Qed.

(** * Beyond the specification: invocations in sequence

    [CreatePackage] may be invoked more than once.  What follows is read off
    its body alone, for every framework routine. *)

Section CreatePackageInSequence.

Context {IReactPackageBuilder World Fields : Type}.
Variable AddAttributedModules : IReactPackageBuilder -> bool -> M World unit.

Implicit Types (builders : list IReactPackageBuilder)
               (f : Frame IReactPackageBuilder World Fields).

Lemma CreatePackage_cases packageBuilder f :
  CreatePackage AddAttributedModules packageBuilder f
  = (fst (noexcept (AddAttributedModules packageBuilder true) (world f)),
     mkFrame (this f)
             (snd (AddAttributedModules packageBuilder true (world f)))
             (calls f ++ [CallAddAttributedModules packageBuilder true])).
Proof.
  rewrite <- CreatePackage_completion, <- CreatePackage_state.
  by destruct (CreatePackage AddAttributedModules packageBuilder f).
Qed.

(** X1.  Invocations of [CreatePackage] in sequence, one per builder of a
    list: some prefix of the list is served (all of it when the sequence
    returns normally); the provider object is as before; the log has gained
    one call [AddAttributedModules(b, true)] per builder served, in order,
    and nothing else; the framework state is the one the routine produces
    when run with [true] on each builder served in turn; and no exception
    ever leaves the sequence. *)
Theorem CreatePackage_in_sequence builders f :
  ∃ served : nat,
    served ≤ length builders
    ∧ this (snd (for_each (CreatePackage AddAttributedModules) builders f)) = this f
    ∧ calls (snd (for_each (CreatePackage AddAttributedModules) builders f))
      = calls f ++ map (λ b, CallAddAttributedModules b true) (take served builders)
    ∧ world (snd (for_each (CreatePackage AddAttributedModules) builders f))
      = foldl (λ w b, snd (AddAttributedModules b true w)) (world f)
              (take served builders)
    ∧ (fst (for_each (CreatePackage AddAttributedModules) builders f) = Normal tt →
       served = length builders)
    ∧ (∀ hr, fst (for_each (CreatePackage AddAttributedModules) builders f) ≠ Throw hr).
Proof.
  revert f. induction builders as [|b rest IH]; intros f.
  - exists 0. cbn. rewrite app_nil_r. repeat split; [lia | discriminate].
  - cbn [for_each]. unfold bind. rewrite CreatePackage_cases.
    unfold noexcept.
    destruct (AddAttributedModules b true (world f)) as [[[]|hr|] w] eqn:E;
      cbn [fst snd]; cbv beta.
    + set (f1 := mkFrame (this f) w (calls f ++ [CallAddAttributedModules b true])).
      destruct (IH f1) as (k & Hk & Hthis & Hcalls & Hworld & Hall & Hthrow).
      exists (S k). cbn [take map foldl length]. rewrite E. cbn [snd].
      repeat split.
      * lia.
      * exact Hthis.
      * rewrite Hcalls. subst f1. cbn [calls]. by rewrite <- app_assoc.
      * exact Hworld.
      * intros Hn. by rewrite (Hall Hn).
      * exact Hthrow.
    + exists 1. cbn [take map foldl length]. rewrite E. cbn.
      repeat split; [lia | discriminate | discriminate].
    + exists 1. cbn [take map foldl length]. rewrite E. cbn.
      repeat split; [lia | discriminate | discriminate].
Qed.

(** X2.  The first invocation whose framework routine does not return
    normally ends the sequence: the process is aborted, that one call is the
    last one logged, the framework state is as the routine left it, and the
    builders that follow are never handed to the framework. *)
Theorem CreatePackage_failure_stops_sequence packageBuilder builders f :
  fst (AddAttributedModules packageBuilder true (world f)) ≠ Normal tt →
  for_each (CreatePackage AddAttributedModules) (packageBuilder :: builders) f
  = (Abort,
     mkFrame (this f)
             (snd (AddAttributedModules packageBuilder true (world f)))
             (calls f ++ [CallAddAttributedModules packageBuilder true])).
Proof.
  intros Hfail. cbn [for_each]. unfold bind at 1. rewrite CreatePackage_cases.
  unfold noexcept.
  destruct (AddAttributedModules packageBuilder true (world f)) as [[[]|hr|] w];
    cbn [fst snd] in *; [congruence | reflexivity | reflexivity].
Qed.


End CreatePackageInSequence.

Lemma CreatePackage_failure_stops_sequence_witness :
  for_each (CreatePackage (Reference.AddAttributedModules ["ImageClassifier"]))
           [Reference.refusing_builder; Reference.registry_builder]
           Reference.startup
  = (Abort,
     mkFrame (this Reference.startup)
             (snd (Reference.AddAttributedModules ["ImageClassifier"]
                     Reference.refusing_builder true (world Reference.startup)))
             (calls Reference.startup
              ++ [CallAddAttributedModules Reference.refusing_builder true])).
Proof.
  apply (CreatePackage_failure_stops_sequence
           (Reference.AddAttributedModules ["ImageClassifier"])
           Reference.refusing_builder [Reference.registry_builder]
           Reference.startup).
  discriminate.
Defined.

